(** * firedrake.norms: [norm] and [errornorm]

    A shallow embedding of [firedrake/norms.py].  The module imports its
    symbolic operators ([inner], [grad], [div], [curl], [sqrt], [dx]) from
    UFL, [assemble] from the assembly engine and [warning] from the logger;
    those collaborators are gathered in the class [Collaborators].  Every
    UFL operator may raise (on operands whose shapes do not fit), and so
    may [assemble] and [sqrt].  What the module itself does (the rank and
    type checks, the advisory warning, the dispatch on the norm type, the
    call of [assemble] followed by [sqrt]) is written out below, statement
    by statement, in the order Python evaluates it. *)

From Stdlib Require Import String Ascii List ZArith Bool Lia.
Import ListNotations.
Local Open Scope string_scope.
Local Open Scope list_scope.

(** ** Python values and exceptions *)

(** The values this module puts into an exception: a string, or a class
    object ([type(uh)]), identified by its qualified name. *)
Inductive pyval : Type :=
| PyStr (s : string)
| PyType (qualname : string).

(** A Python exception: its class and its [args] tuple. *)
Record exn : Type := Exn { exn_class : string; exn_args : list pyval }.

Definition RuntimeError (msg : string) : exn := Exn "RuntimeError" [PyStr msg].
Definition ValueError (args : list pyval) : exn := Exn "ValueError" args.

(** Pure code that may raise: the exception, or the value. *)
Definition ebind {A B} (r : exn + A) (k : A -> exn + B) : exn + B :=
  match r with
  | inl e => inl e
  | inr a => k a
  end.

Notation "x <~ r ;; k" := (ebind r (fun x => k))
  (at level 61, r at next level, right associativity).

(** ** [str.lower] on byte strings *)

Definition lower_ascii (c : ascii) : ascii :=
  let n := nat_of_ascii c in
  if (65 <=? n)%nat && (n <=? 90)%nat then ascii_of_nat (n + 32) else c.

Fixpoint lower (s : string) : string :=
  match s with
  | EmptyString => EmptyString
  | String c s' => String (lower_ascii c) (lower s')
  end.

(** [string.whitespace]: space, tab, line feed, vertical tab, form feed,
    carriage return. *)
Definition is_space (c : ascii) : bool :=
  let n := nat_of_ascii c in
  (n =? 32)%nat || ((9 <=? n)%nat && (n <=? 13)%nat).

Fixpoint has_space (s : string) : bool :=
  match s with
  | EmptyString => false
  | String c s' => is_space c || has_space s'
  end.

Definition leading_space (s : string) : bool :=
  match s with
  | EmptyString => false
  | String c _ => is_space c
  end.

Fixpoint trailing_space (s : string) : bool :=
  match s with
  | EmptyString => false
  | String c EmptyString => is_space c
  | String _ s' => trailing_space s'
  end.

(** ** The collaborators *)

Class Collaborators : Type := {
  (** UFL expressions (a firedrake [Function] is one of them), forms,
      the meshes passed as [mesh], and the floats [assemble] returns. *)
  Expr : Type;
  Form : Type;
  Measure : Type;
  Mesh : Type;
  scalar : Type;
  (** [ufl]: [inner], [grad], [div], [curl], [dx], and the operators
      [a*b], [a - b], [e*dx] (here [integral e dx]), [form + form]; each
      returns its result or raises. *)
  inner : Expr -> Expr -> exn + Expr;
  grad : Expr -> exn + Expr;
  div : Expr -> exn + Expr;
  curl : Expr -> exn + Expr;
  dx : Measure;
  expr_mul : Expr -> Expr -> exn + Expr;
  expr_sub : Expr -> Expr -> exn + Expr;
  integral : Expr -> Measure -> exn + Form;
  form_add : Form -> Form -> exn + Form;
  (** what the module reads of an operand: [e.ufl_shape], [type(e)],
      [isinstance(e, function.Function)] and
      [e.function_space().ufl_element().degree()]. *)
  ufl_shape : Expr -> list Z;
  type_of : Expr -> string;
  isinstance_Function : Expr -> bool;
  element_degree : Expr -> Z;
  (** the value or exception of [assemble(form)]. *)
  assemble_engine : Form -> exn + scalar;
  (** floats: the test [a < 0], and the square root of a float that is
      not negative, which is not negative either. *)
  is_negative : scalar -> bool;
  real_sqrt : scalar -> scalar;
  real_sqrt_not_negative :
    forall a, is_negative a = false -> is_negative (real_sqrt a) = false
}.

(** ** Effects: the warnings logged and the forms handed to [assemble] *)

Section Effects.
Context `{C : Collaborators}.

Inductive event : Type :=
| EvWarning (msg : string)
| EvAssemble (f : Form).

(** A computation yields the events it caused, in order, and either the
    exception it raised or its value. *)
Definition M (A : Type) : Type := (list event * (exn + A))%type.

Definition ret {A} (a : A) : M A := ([], inr a).
Definition raise {A} (e : exn) : M A := ([], inl e).
Definition bind {A B} (m : M A) (k : A -> M B) : M B :=
  match m with
  | (evs, inl e) => (evs, inl e)
  | (evs, inr a) => let (evs', r) := k a in (evs ++ evs', r)
  end.
Definition lift {A} (r : exn + A) : M A := ([], r).

(** [ufl.sqrt] of the float [assemble] returned: [math.sqrt], which
    raises [ValueError("math domain error")] on a negative argument. *)
Definition math_domain_error : exn := ValueError [PyStr "math domain error"].
Definition ufl_sqrt (a : scalar) : exn + scalar :=
  if is_negative a then inl math_domain_error else inr (real_sqrt a).

Definition warning (msg : string) : M unit := ([EvWarning msg], inr tt).
Definition assemble (f : Form) : M scalar := ([EvAssemble f], assemble_engine f).
Definition sqrt (a : scalar) : M scalar := lift (ufl_sqrt a).

Definition events {A} (m : M A) : list event := fst m.
Definition outcome {A} (m : M A) : exn + A := snd m.

Definition is_warning (ev : event) : bool :=
  match ev with EvWarning _ => true | EvAssemble _ => false end.
Definition warnings {A} (m : M A) : list event := filter is_warning (events m).
End Effects.

Notation "x <- m ;; k" := (bind m (fun x => k))
  (at level 61, m at next level, right associativity).
Notation "m ;;; k" := (bind m (fun _ => k))
  (at level 61, right associativity).

(** ** The module *)

Section Norms.
Context `{C : Collaborators}.

(** Lines 75-85 of [norm]: the dispatch on [norm_type.lower()] and the
    form of the branch taken, operator by operator. *)
Definition norm_form (v : Expr) (norm_type : string) : exn + Form :=
  let typ := lower norm_type in
  if typ =? "l2" then
    a <~ inner v v ;;
    integral a dx
  else if typ =? "h1" then
    a <~ inner v v ;;
    f1 <~ integral a dx ;;
    g1 <~ grad v ;;
    g2 <~ grad v ;;
    b <~ inner g1 g2 ;;
    f2 <~ integral b dx ;;
    form_add f1 f2
  else if typ =? "hdiv" then
    a <~ inner v v ;;
    f1 <~ integral a dx ;;
    d1 <~ div v ;;
    d2 <~ div v ;;
    p <~ expr_mul d1 d2 ;;
    f2 <~ integral p dx ;;
    form_add f1 f2
  else if typ =? "hcurl" then
    a <~ inner v v ;;
    f1 <~ integral a dx ;;
    c1 <~ curl v ;;
    c2 <~ curl v ;;
    b <~ inner c1 c2 ;;
    f2 <~ integral b dx ;;
    form_add f1 f2
  else
    inl (RuntimeError ("Unknown norm type '" ++ norm_type ++ "'")%string).

(** [norm(v, norm_type="L2", mesh=None)]. *)
Definition norm (v : Expr) (norm_type : string) (mesh : option Mesh) : M scalar :=
  form <- lift (norm_form v norm_type) ;;
  a <- assemble form ;;
  sqrt a.

(** [errornorm(u, uh, norm_type="L2", degree_rise=None, mesh=None)]. *)
Definition errornorm (u uh : Expr) (norm_type : string)
           (degree_rise : option Z) (mesh : option Mesh) : M scalar :=
  let urank := length (ufl_shape u) in
  let uhrank := length (ufl_shape uh) in
  if negb (urank =? uhrank)%nat then
    raise (RuntimeError "Mismatching rank between u and uh")
  else if negb (isinstance_Function uh) then
    raise (ValueError [PyStr "uh should be a Function, is a %r"; PyType (type_of uh)])
  else
    (if isinstance_Function u then
       let degree_u := element_degree u in
       let degree_uh := element_degree uh in
       if (degree_uh >? degree_u)%Z then
         warning "Degree of exact solution less than approximation degree"
       else ret tt
     else ret tt) ;;;
    d <- lift (expr_sub u uh) ;;
    norm d norm_type mesh.

Definition default_norm_type : string := "L2".
End Norms.

(** The norm types [norm] accepts, as [norm_type.lower()] spells them. *)
Definition supported_types : list string := ["l2"; "h1"; "hdiv"; "hcurl"].

(** [needle] occurs in [hay]. *)
Definition contains (hay needle : string) : Prop :=
  exists pre post, hay = (pre ++ needle ++ post)%string.

(** The four norms. *)
Inductive kind : Type := L2 | H1 | Hdiv | Hcurl.

(** The branch the tests of lines 76-82 select, if any. *)
Definition kind_of (norm_type : string) : option kind :=
  let typ := lower norm_type in
  if typ =? "l2" then Some L2
  else if typ =? "h1" then Some H1
  else if typ =? "hdiv" then Some Hdiv
  else if typ =? "hcurl" then Some Hcurl
  else None.

Section Statements.
Context `{C : Collaborators}.

(** The table of norms: [(v, v)], to which H1 adds [(grad v, grad v)],
    Hdiv [div v * div v] and Hcurl [(curl v, curl v)], each term
    integrated against [dx] and the integrals added up. *)
Definition second_term (kd : kind) (v : Expr) : option (exn + Expr) :=
  match kd with
  | L2 => None
  | H1 => Some (g <~ grad v ;; inner g g)
  | Hdiv => Some (d <~ div v ;; expr_mul d d)
  | Hcurl => Some (c <~ curl v ;; inner c c)
  end.

Definition table_form (kd : kind) (v : Expr) : exn + Form :=
  a <~ inner v v ;;
  f1 <~ integral a dx ;;
  match second_term kd v with
  | None => inr f1
  | Some term =>
      b <~ term ;;
      f2 <~ integral b dx ;;
      form_add f1 f2
  end.

(** [norm] built [form] for [v] and [norm_type], handed exactly that
    form to [assemble], once, and did nothing else before [sqrt]. *)
Definition passes_to_assemble (v : Expr) (norm_type : string)
           (mesh : option Mesh) (form : Form) : Prop :=
  norm_form v norm_type = inr form /\
  norm v norm_type mesh = (a <- assemble form ;; sqrt a) /\
  events (norm v norm_type mesh) = [EvAssemble form].

(** The last line of [errornorm]: [norm(u - uh, norm_type, mesh)], the
    difference being formed first. *)
Definition norm_difference (u uh : Expr) (norm_type : string)
           (mesh : option Mesh) : M scalar :=
  d <- lift (expr_sub u uh) ;;
  norm d norm_type mesh.

Definition rank_mismatch : exn :=
  RuntimeError "Mismatching rank between u and uh".
Definition not_a_function (uh : Expr) : exn :=
  ValueError [PyStr "uh should be a Function, is a %r"; PyType (type_of uh)].
Definition unknown_norm_type (norm_type : string) : exn :=
  RuntimeError ("Unknown norm type '" ++ norm_type ++ "'")%string.
Definition degree_warning : event :=
  EvWarning "Degree of exact solution less than approximation degree".

(** The forms a computation handed to [assemble]: its events without the
    warnings. *)
Definition assembled {A} (m : M A) : list event :=
  filter (fun ev => negb (is_warning ev)) (events m).

(** [sqrt(assemble(form))] as a value or an exception: the exception of
    [assemble] if it raises, else whatever [sqrt] yields. *)
Definition sqrt_of_assembled (form : Form) : exn + scalar :=
  match assemble_engine form with
  | inl e => inl e
  | inr a => ufl_sqrt a
  end.

(** The test of lines 31-34: [u] is a [Function] of degree lower than
    that of [uh]. *)
Definition coarser_reference (u uh : Expr) : bool :=
  isinstance_Function u && (element_degree uh >? element_degree u)%Z.

(** Both checks of lines 25-29 pass. *)
Definition comparable (u uh : Expr) : bool :=
  (length (ufl_shape u) =? length (ufl_shape uh))%nat && isinstance_Function uh.
End Statements.

(** ** A concrete collaborator, to run the definitions

    Expressions are symbolic trees with the shapes UFL gives them, the
    operators raise where UFL does, a form is the list of its integrands
    over [dx], floats are stood for by integers, and the engine is supplied
    by the caller. *)
Module Demo.

Inductive term : Type :=
| Function (name : string) (shape : list Z) (degree : Z)
| Coefficient (name : string) (shape : list Z)
| Inner (a b : term)
| Grad (a : term)
| Div (a : term)
| Curl (a : term)
| Product (a b : term)
| Difference (a b : term).

Fixpoint shape (t : term) : list Z :=
  match t with
  | Function _ s _ => s
  | Coefficient _ s => s
  | Inner _ _ => []
  | Grad a => shape a ++ [2%Z]
  | Div a => removelast (shape a)
  | Curl a =>
      match shape a with
      | [] => [2%Z]
      | [2%Z] => []
      | s => s
      end
  | Product a b =>
      match shape a, shape b with
      | [], s => s
      | s, [] => s
      | [i; _], [_] => [i]
      | [i; _], [_; j] => [i; j]
      | _, _ => []
      end
  | Difference a _ => shape a
  end.

Definition class_name (t : term) : string :=
  match t with
  | Function _ _ _ => "firedrake.function.Function"
  | Coefficient _ _ => "ufl.coefficient.Coefficient"
  | Inner _ _ => "ufl.tensoralgebra.Inner"
  | Grad _ => "ufl.differentiation.Grad"
  | Div _ => "ufl.differentiation.Div"
  | Curl _ => "ufl.differentiation.Curl"
  | Product _ _ => "ufl.algebra.Product"
  | Difference _ _ => "ufl.algebra.Sum"
  end.

Definition is_function (t : term) : bool :=
  match t with Function _ _ _ => true | _ => false end.

Definition degree_of (t : term) : Z :=
  match t with Function _ _ d => d | _ => 0%Z end.

Definition ufl_error (msg : string) : exn := Exn "UFLException" [PyStr msg].

Definition same_shape (a b : term) : bool :=
  if list_eq_dec Z.eq_dec (shape a) (shape b) then true else false.

Definition inner_op (a b : term) : exn + term :=
  if same_shape a b then inr (Inner a b)
  else inl (ufl_error "Shapes do not match").

Definition div_op (a : term) : exn + term :=
  match shape a with
  | [] => inl (ufl_error "Can't take the divergence of a scalar.")
  | _ => inr (Div a)
  end.

Definition curl_op (a : term) : exn + term :=
  match shape a with
  | [] | [2%Z] | [3%Z] => inr (Curl a)
  | _ => inl (ufl_error "Curl requires a scalar, 2D vector or 3D vector.")
  end.

Definition mul_op (a b : term) : exn + term :=
  match shape a, shape b with
  | [], _ | _, [] | [_; _], [_] | [_; _], [_; _] => inr (Product a b)
  | _, _ => inl (ufl_error "Invalid ranks in product.")
  end.

Definition sub_op (a b : term) : exn + term :=
  if same_shape a b then inr (Difference a b)
  else inl (ufl_error "Can't add expressions with different shapes.").

Definition collaborators (engine : list term -> exn + Z) : Collaborators :=
  {| Expr := term;
     Form := list term;
     Measure := unit;
     Mesh := string;
     scalar := Z;
     inner := inner_op;
     grad := fun a => inr (Grad a);
     div := div_op;
     curl := curl_op;
     dx := tt;
     expr_mul := mul_op;
     expr_sub := sub_op;
     integral := fun e _ => inr [e];
     form_add := fun f g => inr (f ++ g);
     ufl_shape := shape;
     type_of := class_name;
     isinstance_Function := is_function;
     element_degree := degree_of;
     assemble_engine := engine;
     is_negative := fun a => (a <? 0)%Z;
     real_sqrt := Z.sqrt;
     real_sqrt_not_negative :=
       fun a _ => proj2 (Z.ltb_ge (Z.sqrt a) 0) (Z.sqrt_nonneg a) |}.

(** An engine that returns the same value for every form, and
    collaborators built on it. *)
Definition constant_engine (x : Z) : list term -> exn + Z :=
  fun _ => inr x.
Definition real_root (x : Z) : Collaborators :=
  collaborators (constant_engine x).

(** An engine that fails on every form, and collaborators built on it. *)
Definition singular : exn := Exn "ConvergenceError" [PyStr "singular system"].
Definition failing_engine : list term -> exn + Z := fun _ => inl singular.
Definition failing : Collaborators := collaborators failing_engine.

Definition f : term := Function "f" [] 1.
Definition w : term := Function "w" [2%Z] 1.
Definition tensor : term := Function "T" [2%Z; 2%Z] 1.
Definition u_vec : term := Coefficient "u" [2%Z].
Definition u_sym : term := Coefficient "u" [].
Definition u_p1 : term := Function "u" [] 1.
Definition u_p1_vec : term := Function "u" [2%Z] 1.
Definition u_p2 : term := Function "u" [] 2.
Definition uh_p2 : term := Function "uh" [] 2.
Definition uh_p2_vec : term := Function "uh" [2%Z] 2.
Definition uh_p2_vec3 : term := Function "uh" [3%Z] 2.
Definition uh_sym : term := Coefficient "uh" [].
Definition uh_vec_sym : term := Coefficient "uh" [3%Z].

End Demo.

(** ** Lower-casing and white space *)

Lemma is_space_lower_ascii (c : ascii) : is_space (lower_ascii c) = is_space c.
Proof.
  destruct c as [b0 b1 b2 b3 b4 b5 b6 b7].
  destruct b0, b1, b2, b3, b4, b5, b6, b7; reflexivity.
Qed.

Lemma has_space_lower (s : string) : has_space (lower s) = has_space s.
Proof.
  induction s as [|c s IH]; simpl.
  - reflexivity.
  - now rewrite is_space_lower_ascii, IH.
Qed.

Lemma leading_space_has_space (s : string) :
  leading_space s = true -> has_space s = true.
Proof.
  destruct s as [|c s]; simpl; intros H.
  - discriminate.
  - now rewrite H.
Qed.

Lemma trailing_space_has_space (s : string) :
  trailing_space s = true -> has_space s = true.
Proof.
  induction s as [|c s IH]; intros H.
  - discriminate.
  - destruct s as [|d s].
    + simpl in *. now rewrite H.
    + change (trailing_space (String d s) = true) in H.
      change (is_space c || has_space (String d s) = true).
      rewrite (IH H). apply orb_true_r.
Qed.

Lemma supported_no_space (s : string) :
  In s supported_types -> has_space s = false.
Proof.
  unfold supported_types. simpl.
  intros [<- | [<- | [<- | [<- | []]]]]; reflexivity.
Qed.

Lemma space_not_supported (k : string) :
  has_space k = true -> ~ In (lower k) supported_types.
Proof.
  intros Hk Hin. apply supported_no_space in Hin.
  rewrite has_space_lower in Hin. congruence.
Qed.

(** ** Strings: cancelling a common suffix *)

Lemma length_append (a b : string) :
  String.length (a ++ b) = String.length a + String.length b.
Proof. induction a as [|c a IH]; simpl; [reflexivity | now rewrite IH]. Qed.

Lemma append_cancel_r (a b s : string) :
  (a ++ s = b ++ s)%string -> a = b.
Proof.
  revert b. induction a as [|c a IH]; intros [|d b] H.
  - reflexivity.
  - apply (f_equal String.length) in H. simpl in H.
    rewrite length_append in H. lia.
  - apply (f_equal String.length) in H. simpl in H.
    rewrite length_append in H. lia.
  - simpl in H. injection H as Hc H. subst d. f_equal. now apply IH.
Qed.

(** ** The branch selected *)

Lemma kind_of_supported (k : string) :
  In (lower k) supported_types <-> exists kd, kind_of k = Some kd.
Proof.
  unfold supported_types, kind_of. simpl. split.
  - intros [H | [H | [H | [H | []]]]]; rewrite <- H; simpl; eauto.
  - intros [kd H].
    destruct (lower k =? "l2") eqn:E1;
      [apply String.eqb_eq in E1; auto|].
    destruct (lower k =? "h1") eqn:E2;
      [apply String.eqb_eq in E2; auto|].
    destruct (lower k =? "hdiv") eqn:E3;
      [apply String.eqb_eq in E3; auto|].
    destruct (lower k =? "hcurl") eqn:E4;
      [apply String.eqb_eq in E4; auto 6|].
    discriminate.
Qed.

Lemma kind_of_unsupported (k : string) :
  ~ In (lower k) supported_types -> kind_of k = None.
Proof.
  intros H. destruct (kind_of k) as [kd|] eqn:E; [|reflexivity].
  exfalso. apply H, kind_of_supported. eauto.
Qed.

Lemma kind_of_lower (k k' : string) :
  lower k = lower k' -> kind_of k = kind_of k'.
Proof. unfold kind_of. simpl. now intros <-. Qed.

(** ** The monad and the two functions, unfolded *)

Section Facts.
Context `{C : Collaborators}.

Lemma bind_value {A B} (evs : list event) (a : A) (k : A -> M B) :
  bind (evs, inr a) k = (evs ++ events (k a), outcome (k a)).
Proof. unfold bind, events, outcome. now destruct (k a). Qed.

Lemma bind_ret {A B} (a : A) (k : A -> M B) : bind ([], inr a) k = k a.
Proof. unfold bind. now destruct (k a). Qed.

Lemma bind_raise {A B} (evs : list event) (e : exn) (k : A -> M B) :
  bind (evs, inl e) k = (evs, inl e).
Proof. reflexivity. Qed.

Lemma ebind_ret {A} (r : exn + A) : (x <~ r ;; inr x) = r.
Proof. now destruct r. Qed.

(** The dispatch of [norm], branch by branch: the form of the table for
    the branch selected, the unknown-type error if none is. *)
Lemma norm_form_table (v : Expr) (k : string) :
  norm_form v k =
  match kind_of k with
  | Some kd => table_form kd v
  | None => inl (unknown_norm_type k)
  end.
Proof.
  unfold norm_form, kind_of, table_form, unknown_norm_type. simpl.
  destruct (lower k =? "l2").
  { simpl. destruct (inner v v) as [e|a]; [reflexivity|]. simpl.
    now rewrite ebind_ret. }
  destruct (lower k =? "h1").
  { simpl. destruct (inner v v) as [e|a]; [reflexivity|]. simpl.
    destruct (integral a dx) as [e|f1]; [reflexivity|]. simpl.
    now destruct (grad v). }
  destruct (lower k =? "hdiv").
  { simpl. destruct (inner v v) as [e|a]; [reflexivity|]. simpl.
    destruct (integral a dx) as [e|f1]; [reflexivity|]. simpl.
    now destruct (div v). }
  destruct (lower k =? "hcurl").
  { simpl. destruct (inner v v) as [e|a]; [reflexivity|]. simpl.
    destruct (integral a dx) as [e|f1]; [reflexivity|]. simpl.
    now destruct (curl v). }
  reflexivity.
Qed.

Lemma norm_form_unsupported (v : Expr) (k : string) :
  ~ In (lower k) supported_types ->
  norm_form v k = inl (unknown_norm_type k).
Proof.
  intros H. now rewrite norm_form_table, (kind_of_unsupported k H).
Qed.

Lemma norm_form_same_lower (v : Expr) (k k' : string) :
  lower k = lower k' ->
  In (lower k) supported_types ->
  norm_form v k = norm_form v k'.
Proof.
  intros E [kd H]%kind_of_supported.
  now rewrite !norm_form_table, <- (kind_of_lower k k' E), H.
Qed.

Lemma norm_form_lower (v : Expr) (k k' : string) (form : Form) :
  lower k = lower k' ->
  norm_form v k = inr form -> norm_form v k' = inr form.
Proof.
  intros E. rewrite !norm_form_table, <- (kind_of_lower k k' E).
  now destruct (kind_of k).
Qed.

Lemma norm_form_built_supported (v : Expr) (k : string) (form : Form) :
  norm_form v k = inr form -> In (lower k) supported_types.
Proof.
  intros H.
  destruct (in_dec string_dec (lower k) supported_types) as [Hin|Hout];
    [exact Hin|].
  rewrite (norm_form_unsupported v k Hout) in H. discriminate.
Qed.

Lemma norm_of_form (v : Expr) (k : string) (m : option Mesh) (form : Form) :
  norm_form v k = inr form ->
  norm v k m = (a <- assemble form ;; sqrt a).
Proof.
  intros H. unfold norm. rewrite H. unfold lift. now rewrite bind_ret.
Qed.

Lemma norm_no_form (v : Expr) (k : string) (m : option Mesh) (e : exn) :
  norm_form v k = inl e -> norm v k m = raise e.
Proof. intros H. unfold norm. now rewrite H. Qed.

Lemma assemble_then_sqrt_events (form : Form) :
  events (a <- assemble form ;; sqrt a) = [EvAssemble form].
Proof.
  unfold assemble, sqrt, lift. destruct (assemble_engine form) as [e|a].
  - reflexivity.
  - rewrite bind_value. reflexivity.
Qed.

Lemma assemble_then_sqrt_value (form : Form) (a : scalar) :
  assemble_engine form = inr a ->
  (a <- assemble form ;; sqrt a) = ([EvAssemble form], ufl_sqrt a).
Proof.
  intros H. unfold assemble, sqrt, lift. rewrite H, bind_value. reflexivity.
Qed.

Lemma assemble_then_sqrt_failure (form : Form) (e : exn) :
  assemble_engine form = inl e ->
  (a <- assemble form ;; sqrt a) = ([EvAssemble form], inl e).
Proof. intros H. unfold assemble. now rewrite H. Qed.

Lemma norm_unfold (v : Expr) (k : string) (m : option Mesh) :
  norm v k m =
  match norm_form v k with
  | inl e => ([], inl e)
  | inr form => ([EvAssemble form], sqrt_of_assembled form)
  end.
Proof.
  destruct (norm_form v k) as [e|form] eqn:E.
  - now apply norm_no_form.
  - rewrite (norm_of_form _ _ m _ E). unfold sqrt_of_assembled.
    destruct (assemble_engine form) as [e|a] eqn:Ea.
    + now apply assemble_then_sqrt_failure.
    + now apply assemble_then_sqrt_value.
Qed.

(** [norm] logs no warning. *)
Lemma norm_warnings (v : Expr) (k : string) (m : option Mesh) :
  warnings (norm v k m) = [].
Proof. rewrite norm_unfold. now destruct (norm_form v k). Qed.

Lemma norm_difference_unfold (u uh : Expr) k m :
  norm_difference u uh k m =
  match expr_sub u uh with
  | inl e => ([], inl e)
  | inr d => norm d k m
  end.
Proof.
  unfold norm_difference, lift. destruct (expr_sub u uh) as [e|d].
  - reflexivity.
  - now rewrite bind_ret.
Qed.

Lemma norm_difference_warnings (u uh : Expr) k m :
  warnings (norm_difference u uh k m) = [].
Proof.
  rewrite norm_difference_unfold. destruct (expr_sub u uh); [reflexivity|].
  apply norm_warnings.
Qed.

(** [errornorm], one lemma per path. *)
Lemma errornorm_unequal_rank (u uh : Expr) k dr m :
  length (ufl_shape u) <> length (ufl_shape uh) ->
  errornorm u uh k dr m = raise rank_mismatch.
Proof.
  intros H. unfold errornorm. apply Nat.eqb_neq in H. now rewrite H.
Qed.

Lemma errornorm_not_function (u uh : Expr) k dr m :
  length (ufl_shape u) = length (ufl_shape uh) ->
  isinstance_Function uh = false ->
  errornorm u uh k dr m = raise (not_a_function uh).
Proof.
  intros H F. unfold errornorm. apply Nat.eqb_eq in H. now rewrite H, F.
Qed.

Lemma errornorm_warned (u uh : Expr) k dr m :
  length (ufl_shape u) = length (ufl_shape uh) ->
  isinstance_Function uh = true ->
  isinstance_Function u = true ->
  (element_degree u < element_degree uh)%Z ->
  errornorm u uh k dr m =
  (degree_warning :: events (norm_difference u uh k m),
   outcome (norm_difference u uh k m)).
Proof.
  intros H F Fu D. unfold errornorm. apply Nat.eqb_eq in H.
  rewrite H, F, Fu. simpl.
  replace (element_degree uh >? element_degree u)%Z with true
    by (symmetry; apply Z.gtb_lt; exact D).
  unfold warning. fold (norm_difference u uh k m). now rewrite bind_value.
Qed.

Lemma errornorm_quiet (u uh : Expr) k dr m :
  length (ufl_shape u) = length (ufl_shape uh) ->
  isinstance_Function uh = true ->
  isinstance_Function u = false \/ (element_degree uh <= element_degree u)%Z ->
  errornorm u uh k dr m = norm_difference u uh k m.
Proof.
  intros H F D. unfold errornorm. apply Nat.eqb_eq in H.
  rewrite H, F. simpl.
  assert (Hpre : (if isinstance_Function u
                  then if (element_degree uh >? element_degree u)%Z
                       then warning "Degree of exact solution less than approximation degree"
                       else ret tt
                  else ret tt) = ret tt).
  { destruct (isinstance_Function u); [|reflexivity].
    destruct D as [D|D]; [discriminate|].
    replace (element_degree uh >? element_degree u)%Z with false; [reflexivity|].
    symmetry. rewrite Z.gtb_ltb. apply Z.ltb_ge. exact D. }
  rewrite Hpre. unfold ret. fold (norm_difference u uh k m).
  now rewrite bind_ret.
Qed.

Lemma errornorm_unfold (u uh : Expr) k dr m :
  errornorm u uh k dr m =
  if negb (length (ufl_shape u) =? length (ufl_shape uh))%nat then
    raise rank_mismatch
  else if negb (isinstance_Function uh) then
    raise (not_a_function uh)
  else
    ((if coarser_reference u uh then [degree_warning] else [])
       ++ events (norm_difference u uh k m),
     outcome (norm_difference u uh k m)).
Proof.
  destruct (length (ufl_shape u) =? length (ufl_shape uh))%nat eqn:R; simpl.
  - apply Nat.eqb_eq in R.
    destruct (isinstance_Function uh) eqn:F; simpl.
    + destruct (coarser_reference u uh) eqn:Cr; unfold coarser_reference in Cr.
      * apply andb_true_iff in Cr as [Fu D]. apply Z.gtb_lt in D.
        now apply errornorm_warned.
      * rewrite (errornorm_quiet u uh k dr m R F).
        -- unfold events, outcome. now destruct (norm_difference u uh k m).
        -- apply andb_false_iff in Cr as [Fu|D]; [now left|right].
           rewrite Z.gtb_ltb in D. now apply Z.ltb_ge.
    + now apply errornorm_not_function.
  - apply Nat.eqb_neq in R. now apply errornorm_unequal_rank.
Qed.

Lemma comparable_true (u uh : Expr) :
  comparable u uh = true ->
  (length (ufl_shape u) =? length (ufl_shape uh))%nat = true /\
  isinstance_Function uh = true.
Proof. unfold comparable. now intros H%andb_true_iff. Qed.

Lemma errornorm_comparable (u uh : Expr) k dr m :
  comparable u uh = true ->
  errornorm u uh k dr m =
  ((if coarser_reference u uh then [degree_warning] else [])
     ++ events (norm_difference u uh k m),
   outcome (norm_difference u uh k m)).
Proof.
  intros [R F]%comparable_true. now rewrite errornorm_unfold, R, F.
Qed.

Lemma errornorm_incomparable (u uh : Expr) k dr m :
  comparable u uh = false ->
  events (errornorm u uh k dr m) = [] /\
  (outcome (errornorm u uh k dr m) = inl rank_mismatch \/
   outcome (errornorm u uh k dr m) = inl (not_a_function uh)).
Proof.
  unfold comparable. rewrite errornorm_unfold. intros H.
  destruct (length (ufl_shape u) =? length (ufl_shape uh))%nat; simpl in *.
  - rewrite H. simpl. auto.
  - auto.
Qed.
End Facts.

(** ** The scalar reducer: [sqrt(assemble(form))] *)

Section Reducer.
Context `{C : Collaborators}.

(** C1.  When [assemble] returns a negative value for the form [norm]
    built, be it ever so slightly negative, [norm] fails with the
    [ValueError("math domain error")] of the square root: the value is
    neither clamped nor coerced, and no root is returned.  Every value
    [norm] does return is the real square root of an assembled value that
    is not negative, and is not negative itself. *)
Theorem norm_negative_assembled_fails
        (v : Expr) (k : string) (m : option Mesh) :
  (forall form a,
     norm_form v k = inr form ->
     assemble_engine form = inr a ->
     is_negative a = true ->
     norm v k m = ([EvAssemble form], inl math_domain_error)) /\
  (forall r,
     outcome (norm v k m) = inr r ->
     is_negative r = false /\
     exists form a,
       norm_form v k = inr form /\
       assemble_engine form = inr a /\
       is_negative a = false /\
       r = real_sqrt a).
Proof.
  split.
  - intros form a Hform Ha Hneg.
    rewrite norm_unfold, Hform. unfold sqrt_of_assembled, ufl_sqrt.
    now rewrite Ha, Hneg.
  - intros r H. rewrite norm_unfold in H.
    destruct (norm_form v k) as [e|form]; [discriminate|].
    unfold outcome, sqrt_of_assembled, ufl_sqrt in H. simpl in H.
    destruct (assemble_engine form) as [e|a] eqn:Ea; [discriminate|].
    destruct (is_negative a) eqn:Hneg; [discriminate|].
    injection H as <-. split.
    + now apply real_sqrt_not_negative.
    + now exists form, a.
Qed.
End Reducer.

(** An assembled value of [-4] makes [norm] fail; one of [9] gives [3]. *)
Lemma norm_negative_assembled_fails_witness :
  norm (C := Demo.real_root (-4)) Demo.f "L2" None =
  ([EvAssemble (C := Demo.real_root (-4)) [Demo.Inner Demo.f Demo.f]],
   inl (ValueError [PyStr "math domain error"])) /\
  is_negative (Collaborators := Demo.real_root 9) 3%Z = false.
Proof.
  split.
  - exact (proj1 (norm_negative_assembled_fails (C := Demo.real_root (-4))
                    Demo.f "L2" None)
             [Demo.Inner Demo.f Demo.f] (-4)%Z eq_refl eq_refl eq_refl).
  - exact (proj1 (proj2 (norm_negative_assembled_fails (C := Demo.real_root 9)
                           Demo.f "L2" None) 3%Z eq_refl)).
Defined.

(** ** The norm form builder *)

Section Builder.
Context `{C : Collaborators}.

(** C2.  For each of the four norm types, what [norm] builds is the form
    of the table: [inner(v,v)*dx] for L2, to which H1 adds
    [inner(grad(v),grad(v))*dx], Hdiv [div(v)*div(v)*dx] and Hcurl
    [inner(curl(v),curl(v))*dx], each term integrated against [dx] and the
    integrals added up.  When UFL builds it, that form and no other is
    handed to [assemble], once, and this is the first thing that happens;
    when a UFL operator raises, [norm] fails with its exception and
    nothing is assembled. *)
Theorem norm_builds_table_form
        (v : Expr) (k : string) (m : option Mesh) (kd : kind) :
  kind_of k = Some kd ->
  norm_form v k = table_form kd v /\
  (forall form, table_form kd v = inr form -> passes_to_assemble v k m form) /\
  (forall e, table_form kd v = inl e -> norm v k m = ([], inl e)).
Proof.
  intros Hk.
  assert (Htable : norm_form v k = table_form kd v)
    by now rewrite norm_form_table, Hk.
  split; [exact Htable|]. split.
  - intros form H. rewrite <- Htable in H. unfold passes_to_assemble.
    rewrite (norm_of_form _ _ m _ H), assemble_then_sqrt_events. auto.
  - intros e H. rewrite <- Htable in H. now apply norm_no_form.
Qed.
End Builder.

(** The four forms on a vector field, and a tensor field on which the
    product of the Hdiv form cannot be built. *)
Lemma norm_builds_table_form_witness :
  passes_to_assemble (C := Demo.real_root 9) Demo.w "L2" None
    [Demo.Inner Demo.w Demo.w] /\
  passes_to_assemble (C := Demo.real_root 9) Demo.w "H1" None
    [Demo.Inner Demo.w Demo.w;
     Demo.Inner (Demo.Grad Demo.w) (Demo.Grad Demo.w)] /\
  passes_to_assemble (C := Demo.real_root 9) Demo.w "HDiv" None
    [Demo.Inner Demo.w Demo.w;
     Demo.Product (Demo.Div Demo.w) (Demo.Div Demo.w)] /\
  passes_to_assemble (C := Demo.real_root 9) Demo.w "Hcurl" None
    [Demo.Inner Demo.w Demo.w;
     Demo.Inner (Demo.Curl Demo.w) (Demo.Curl Demo.w)] /\
  norm (C := Demo.real_root 9) Demo.tensor "Hdiv" None
    = ([], inl (Demo.ufl_error "Invalid ranks in product.")).
Proof.
  split; [|split; [|split; [|split]]].
  - exact (proj1 (proj2 (norm_builds_table_form (C := Demo.real_root 9)
                           Demo.w "L2" None L2 eq_refl)) _ eq_refl).
  - exact (proj1 (proj2 (norm_builds_table_form (C := Demo.real_root 9)
                           Demo.w "H1" None H1 eq_refl)) _ eq_refl).
  - exact (proj1 (proj2 (norm_builds_table_form (C := Demo.real_root 9)
                           Demo.w "HDiv" None Hdiv eq_refl)) _ eq_refl).
  - exact (proj1 (proj2 (norm_builds_table_form (C := Demo.real_root 9)
                           Demo.w "Hcurl" None Hcurl eq_refl)) _ eq_refl).
  - exact (proj2 (proj2 (norm_builds_table_form (C := Demo.real_root 9)
                           Demo.tensor "Hdiv" None Hdiv eq_refl)) _ eq_refl).
Defined.

Section Dispatch.
Context `{C : Collaborators}.

(** C6.  Which branch [norm] takes depends on [norm_type] through
    [norm_type.lower()] only: two types with the same lower-casing select
    the same form, a branch is selected exactly when the lower-cased type
    is one of [l2], [h1], [hdiv], [hcurl], and then the whole call is the
    same; so [norm(f, "l2")] and [norm(f, "L2")] are identical.  A type
    with leading or trailing white space is not one of the four tokens
    and fails with the unknown-norm-type error, as any other unknown
    type does. *)
Theorem norm_dispatch_lowercased (v : Expr) (m : option Mesh) :
  (forall k k', lower k = lower k' ->
     forall form, norm_form v k = inr form <-> norm_form v k' = inr form) /\
  (forall k, (In (lower k) supported_types <-> exists kd, kind_of k = Some kd) /\
             norm_form v k = match kind_of k with
                             | Some kd => table_form kd v
                             | None => inl (unknown_norm_type k)
                             end /\
             ((exists form, norm_form v k = inr form) ->
              In (lower k) supported_types)) /\
  (forall k k', lower k = lower k' -> In (lower k) supported_types ->
                norm v k m = norm v k' m) /\
  norm v "l2" m = norm v "L2" m /\
  (forall k, ~ In (lower k) supported_types ->
             norm v k m = raise (unknown_norm_type k)) /\
  (forall k, leading_space k = true \/ trailing_space k = true ->
             ~ In (lower k) supported_types /\
             norm v k m = raise (unknown_norm_type k)).
Proof.
  assert (Hunknown : forall k, ~ In (lower k) supported_types ->
                               norm v k m = raise (unknown_norm_type k)).
  { intros k H. apply norm_no_form. now apply norm_form_unsupported. }
  split; [|split; [|split; [|split; [|split]]]].
  - intros k k' E form. split; apply norm_form_lower; congruence.
  - intros k. split; [apply kind_of_supported|].
    split; [apply norm_form_table|].
    intros [form H]. exact (norm_form_built_supported v k form H).
  - intros k k' E Hin.
    now rewrite !norm_unfold, (norm_form_same_lower v k k' E Hin).
  - reflexivity.
  - exact Hunknown.
  - intros k Hk.
    assert (Hout : ~ In (lower k) supported_types).
    { apply space_not_supported.
      destruct Hk as [Hk|Hk];
        [now apply leading_space_has_space|now apply trailing_space_has_space]. }
    split; [exact Hout|now apply Hunknown].
Qed.

(** C7.  For a norm type outside the four supported ones, [norm] raises
    [RuntimeError("Unknown norm type '<norm_type>'")], where
    [<norm_type>] is the string as the caller wrote it, not its
    lower-casing; nothing is assembled. *)
Theorem norm_unknown_type (v : Expr) (k : string) (m : option Mesh) :
  ~ In (lower k) supported_types ->
  norm v k m = ([], inl (RuntimeError ("Unknown norm type '" ++ k ++ "'")%string)) /\
  contains ("Unknown norm type '" ++ k ++ "'")%string k.
Proof.
  intros H. split.
  - apply norm_no_form. now apply norm_form_unsupported.
  - exists "Unknown norm type '", "'". reflexivity.
Qed.
End Dispatch.

Lemma norm_dispatch_lowercased_witness :
  (norm_form (C := Demo.real_root 9) Demo.f "HCurl"
     = inr [Demo.Inner Demo.f Demo.f;
            Demo.Inner (Demo.Curl Demo.f) (Demo.Curl Demo.f)] <->
   norm_form (C := Demo.real_root 9) Demo.f "hcurl"
     = inr [Demo.Inner Demo.f Demo.f;
            Demo.Inner (Demo.Curl Demo.f) (Demo.Curl Demo.f)]) /\
  norm (C := Demo.real_root 9) Demo.w "hDIV" None
    = norm (C := Demo.real_root 9) Demo.w "Hdiv" None /\
  norm (C := Demo.real_root 9) Demo.f "L3" None
    = raise (unknown_norm_type "L3") /\
  norm (C := Demo.real_root 9) Demo.f " L2" None
    = raise (unknown_norm_type " L2") /\
  norm (C := Demo.real_root 9) Demo.f "h1 " None
    = raise (unknown_norm_type "h1 ").
Proof.
  pose proof (norm_dispatch_lowercased (C := Demo.real_root 9) Demo.f None)
    as [Hsame [_ [_ [_ [Hunknown Hspace]]]]].
  pose proof (norm_dispatch_lowercased (C := Demo.real_root 9) Demo.w None)
    as [_ [_ [Hcall _]]].
  split; [|split; [|split; [|split]]].
  - exact (Hsame "HCurl" "hcurl" eq_refl _).
  - apply (Hcall "hDIV" "Hdiv" eq_refl). simpl. auto.
  - apply (Hunknown "L3"). simpl.
    intros [H | [H | [H | [H | []]]]]; discriminate H.
  - exact (proj2 (Hspace " L2" (or_introl eq_refl))).
  - exact (proj2 (Hspace "h1 " (or_intror eq_refl))).
Defined.

Lemma norm_unknown_type_witness :
  norm (C := Demo.real_root 9) Demo.f "H2" None
    = ([], inl (RuntimeError "Unknown norm type 'H2'")) /\
  contains "Unknown norm type 'H2'" "H2".
Proof.
  apply (norm_unknown_type (C := Demo.real_root 9) Demo.f "H2" None).
  simpl. intros [H | [H | [H | [H | []]]]]; discriminate H.
Defined.

(** ** The field comparator *)

Section Comparator.
Context `{C : Collaborators}.

(** C3.  For [u] and a [Function] [uh] of equal rank, the outcome of
    [errornorm(u, uh, norm_type)], value or exception, is the outcome of
    [norm(u - uh, norm_type)], untouched; what the call does besides is
    what that [norm] call does, preceded by the degree warning or by
    nothing. *)
Theorem errornorm_delegates_to_norm
        (u uh : Expr) (k : string) (dr : option Z) (m : option Mesh) :
  length (ufl_shape u) = length (ufl_shape uh) ->
  isinstance_Function uh = true ->
  outcome (errornorm u uh k dr m) = outcome (norm_difference u uh k m) /\
  (events (errornorm u uh k dr m) = events (norm_difference u uh k m) \/
   events (errornorm u uh k dr m)
     = degree_warning :: events (norm_difference u uh k m)).
Proof.
  intros Hrank Huh.
  destruct (isinstance_Function u) eqn:Hu.
  - destruct (Z_lt_le_dec (element_degree u) (element_degree uh)) as [D|D].
    + rewrite (errornorm_warned u uh k dr m Hrank Huh Hu D). auto.
    + rewrite (errornorm_quiet u uh k dr m Hrank Huh (or_intror D)). auto.
  - rewrite (errornorm_quiet u uh k dr m Hrank Huh (or_introl Hu)). auto.
Qed.

(** C4.  When the ranks of [u] and [uh] differ, [errornorm] raises
    [RuntimeError("Mismatching rank between u and uh")] and has done
    nothing before: no warning, nothing assembled. *)
Theorem errornorm_rank_mismatch
        (u uh : Expr) (k : string) (dr : option Z) (m : option Mesh) :
  length (ufl_shape u) <> length (ufl_shape uh) ->
  errornorm u uh k dr m =
  ([], inl (RuntimeError "Mismatching rank between u and uh")).
Proof. intros H. now apply errornorm_unequal_rank. Qed.

(** C5 (as amended).  When the ranks are equal and [uh] is not a
    [Function], [errornorm] raises a [ValueError] whose arguments are
    the text ["uh should be a Function, is a %r"] and [type(uh)], and
    has done nothing before: no warning, no norm computed. *)
Theorem errornorm_uh_not_function
        (u uh : Expr) (k : string) (dr : option Z) (m : option Mesh) :
  length (ufl_shape u) = length (ufl_shape uh) ->
  isinstance_Function uh = false ->
  errornorm u uh k dr m =
  ([], inl (ValueError [PyStr "uh should be a Function, is a %r";
                        PyType (type_of uh)])).
Proof. intros H F. now apply errornorm_not_function. Qed.

(** C10.  When the ranks differ and [uh] is not a [Function] either,
    the exception is the rank one, not the [ValueError]: the rank test
    comes first. *)
Theorem errornorm_rank_test_first
        (u uh : Expr) (k : string) (dr : option Z) (m : option Mesh) :
  length (ufl_shape u) <> length (ufl_shape uh) ->
  isinstance_Function uh = false ->
  outcome (errornorm u uh k dr m) = inl rank_mismatch /\
  outcome (errornorm u uh k dr m) <> inl (not_a_function uh).
Proof.
  intros H _. rewrite (errornorm_unequal_rank u uh k dr m H).
  split; [reflexivity|]. unfold raise, outcome. simpl.
  intros E. inversion E.
Qed.

(** C8 (as amended).  For operands of equal rank, [uh] a [Function]:
    when [u] is a [Function] too and its degree is lower than that of
    [uh], exactly one warning is logged, first, and the call goes on as
    [norm(u - uh, norm_type)] and has its outcome.  When [u] is not a
    [Function], whatever the ranks, no warning is logged. *)
Theorem errornorm_degree_warning
        (u uh : Expr) (k : string) (dr : option Z) (m : option Mesh) :
  (length (ufl_shape u) = length (ufl_shape uh) ->
   isinstance_Function uh = true ->
   isinstance_Function u = true ->
   (element_degree u < element_degree uh)%Z ->
   events (errornorm u uh k dr m)
     = degree_warning :: events (norm_difference u uh k m) /\
   warnings (errornorm u uh k dr m) = [degree_warning] /\
   outcome (errornorm u uh k dr m) = outcome (norm_difference u uh k m)) /\
  (isinstance_Function u = false ->
   warnings (errornorm u uh k dr m) = [] /\
   (length (ufl_shape u) = length (ufl_shape uh) ->
    isinstance_Function uh = true ->
    errornorm u uh k dr m = norm_difference u uh k m)).
Proof.
  split.
  - intros Hrank Huh Hu D.
    rewrite (errornorm_warned u uh k dr m Hrank Huh Hu D).
    split; [reflexivity|]. split; [|reflexivity].
    unfold warnings, events at 1. simpl.
    fold (warnings (norm_difference u uh k m)).
    now rewrite norm_difference_warnings.
  - intros Hu. split.
    + destruct (Nat.eq_dec (length (ufl_shape u)) (length (ufl_shape uh)))
        as [Hrank|Hrank].
      * destruct (isinstance_Function uh) eqn:Huh.
        -- rewrite (errornorm_quiet u uh k dr m Hrank Huh (or_introl Hu)).
           apply norm_difference_warnings.
        -- now rewrite (errornorm_not_function u uh k dr m Hrank Huh).
      * now rewrite (errornorm_unequal_rank u uh k dr m Hrank).
    + intros Hrank Huh.
      exact (errornorm_quiet u uh k dr m Hrank Huh (or_introl Hu)).
Qed.

(** C9.  [degree_rise] and [mesh] are never read: two calls of
    [errornorm], or of [norm], that differ in them only are the same
    call, events and outcome alike. *)
Theorem degree_rise_and_mesh_inert
        (u uh v : Expr) (k : string)
        (dr dr' : option Z) (m m' : option Mesh) :
  errornorm u uh k dr m = errornorm u uh k dr' m' /\
  norm v k m = norm v k m'.
Proof. split; reflexivity. Qed.
End Comparator.

(** ** The comparator on concrete operands *)

Lemma errornorm_delegates_to_norm_witness :
  outcome (errornorm (C := Demo.real_root 9) Demo.u_sym Demo.uh_p2 "H1" None None)
    = outcome (norm (C := Demo.real_root 9)
                 (Demo.Difference Demo.u_sym Demo.uh_p2) "H1" None) /\
  (events (errornorm (C := Demo.real_root 9) Demo.u_sym Demo.uh_p2 "H1" None None)
     = events (norm (C := Demo.real_root 9)
                 (Demo.Difference Demo.u_sym Demo.uh_p2) "H1" None) \/
   events (errornorm (C := Demo.real_root 9) Demo.u_sym Demo.uh_p2 "H1" None None)
     = degree_warning (C := Demo.real_root 9)
       :: events (norm (C := Demo.real_root 9)
                    (Demo.Difference Demo.u_sym Demo.uh_p2) "H1" None)).
Proof.
  exact (errornorm_delegates_to_norm (C := Demo.real_root 9)
           Demo.u_sym Demo.uh_p2 "H1" None None eq_refl eq_refl).
Defined.

(** A vector reference against a scalar approximation. *)
Lemma errornorm_rank_mismatch_witness :
  errornorm (C := Demo.real_root 9) Demo.u_vec Demo.uh_p2 "L2" None None =
  ([], inl (RuntimeError "Mismatching rank between u and uh")).
Proof.
  apply (errornorm_rank_mismatch (C := Demo.real_root 9)
           Demo.u_vec Demo.uh_p2 "L2" None None).
  simpl. lia.
Defined.

Lemma errornorm_uh_not_function_witness :
  errornorm (C := Demo.real_root 9) Demo.u_sym Demo.uh_sym "L2" None None =
  ([], inl (ValueError [PyStr "uh should be a Function, is a %r";
                        PyType "ufl.coefficient.Coefficient"])).
Proof.
  exact (errornorm_uh_not_function (C := Demo.real_root 9)
           Demo.u_sym Demo.uh_sym "L2" None None eq_refl eq_refl).
Defined.

(** C5, as stated, fails: [uh] is not a [Function], yet the exception is
    the rank one, because the ranks differ too. *)
Lemma errornorm_uh_not_function_rank_error :
  isinstance_Function (Collaborators := Demo.real_root 9) Demo.uh_sym = false /\
  errornorm (C := Demo.real_root 9) Demo.u_vec Demo.uh_sym "L2" None None =
  ([], inl (RuntimeError "Mismatching rank between u and uh")) /\
  outcome (errornorm (C := Demo.real_root 9) Demo.u_vec Demo.uh_sym "L2" None None)
    <> inl (not_a_function (C := Demo.real_root 9) Demo.uh_sym).
Proof.
  split; [reflexivity|]. split; [reflexivity|].
  vm_compute. intros E. inversion E.
Qed.

Lemma errornorm_rank_test_first_witness :
  outcome (errornorm (C := Demo.real_root 9)
             Demo.u_sym Demo.uh_vec_sym "L2" None None)
    = inl rank_mismatch /\
  outcome (errornorm (C := Demo.real_root 9)
             Demo.u_sym Demo.uh_vec_sym "L2" None None)
    <> inl (not_a_function (C := Demo.real_root 9) Demo.uh_vec_sym).
Proof.
  apply (errornorm_rank_test_first (C := Demo.real_root 9)
           Demo.u_sym Demo.uh_vec_sym "L2" None None).
  - simpl. lia.
  - reflexivity.
Defined.

(** A reference of degree 1 against an approximation of degree 2, and a
    symbolic reference against the same approximation. *)
Lemma errornorm_degree_warning_witness :
  (events (errornorm (C := Demo.real_root 9) Demo.u_p1 Demo.uh_p2 "L2" None None)
     = degree_warning (C := Demo.real_root 9)
       :: events (norm (C := Demo.real_root 9)
                    (Demo.Difference Demo.u_p1 Demo.uh_p2) "L2" None) /\
   warnings (errornorm (C := Demo.real_root 9) Demo.u_p1 Demo.uh_p2 "L2" None None)
     = [degree_warning (C := Demo.real_root 9)] /\
   outcome (errornorm (C := Demo.real_root 9) Demo.u_p1 Demo.uh_p2 "L2" None None)
     = inr 3%Z) /\
  (warnings (errornorm (C := Demo.real_root 9) Demo.u_sym Demo.uh_p2 "L2" None None)
     = [] /\
   errornorm (C := Demo.real_root 9) Demo.u_sym Demo.uh_p2 "L2" None None
     = norm (C := Demo.real_root 9)
         (Demo.Difference Demo.u_sym Demo.uh_p2) "L2" None).
Proof.
  split.
  - apply (proj1 (errornorm_degree_warning (C := Demo.real_root 9)
                    Demo.u_p1 Demo.uh_p2 "L2" None None));
      [reflexivity | reflexivity | reflexivity | simpl; lia].
  - destruct (proj2 (errornorm_degree_warning (C := Demo.real_root 9)
                       Demo.u_sym Demo.uh_p2 "L2" None None) eq_refl)
      as [Hquiet Hsame].
    split; [exact Hquiet | exact (Hsame eq_refl eq_refl)].
Defined.

(** C8, as stated, fails: the reference is a [Function] of degree 1, the
    approximation one of degree 2, yet no warning is logged and no scalar
    is returned, because the ranks differ and the rank test comes first. *)
Lemma errornorm_lower_degree_no_warning :
  isinstance_Function (Collaborators := Demo.real_root 9) Demo.u_p1_vec = true /\
  (element_degree (Collaborators := Demo.real_root 9) Demo.u_p1_vec
   < element_degree (Collaborators := Demo.real_root 9) Demo.uh_p2)%Z /\
  warnings (errornorm (C := Demo.real_root 9)
              Demo.u_p1_vec Demo.uh_p2 "L2" None None) = [] /\
  errornorm (C := Demo.real_root 9) Demo.u_p1_vec Demo.uh_p2 "L2" None None =
  ([], inl (RuntimeError "Mismatching rank between u and uh")).
Proof.
  split; [reflexivity|]. split; [simpl; lia|]. split; reflexivity.
Qed.

(** ** Further properties of [norm] *)

Section NormProperties.
Context `{C : Collaborators}.

(** X1.  An exception raised by [assemble] is the exception of [norm],
    unchanged: it is neither caught nor wrapped, and it does not matter
    what [sqrt] would have done. *)
Theorem norm_assembly_failure_propagates
        (v : Expr) (k : string) (m : option Mesh) (form : Form) (e : exn) :
  norm_form v k = inr form ->
  assemble_engine form = inl e ->
  norm v k m = ([EvAssemble form], inl e).
Proof.
  intros Hform He. rewrite norm_unfold, Hform.
  unfold sqrt_of_assembled. now rewrite He.
Qed.

(** X2.  [norm] calls [assemble] exactly once when the form was built,
    also when that call raises, and not at all when building the form
    raised, be it for an unknown norm type or inside a UFL operator; it
    never calls it twice and never logs a warning. *)
Theorem norm_assembles_once (v : Expr) (k : string) (m : option Mesh) :
  (forall form, norm_form v k = inr form ->
                events (norm v k m) = [EvAssemble form]) /\
  (forall e, norm_form v k = inl e -> norm v k m = ([], inl e)) /\
  length (events (norm v k m)) <= 1 /\
  warnings (norm v k m) = [].
Proof.
  split; [|split; [|split]].
  - intros form H. now rewrite norm_unfold, H.
  - intros e H. now rewrite norm_unfold, H.
  - rewrite norm_unfold. destruct (norm_form v k); simpl; lia.
  - apply norm_warnings.
Qed.

(** X3.  A value returned by [norm] is always the square root of an
    assembled value: the type is supported, [assemble] returned some [a]
    for the form built, and [sqrt(a)] is the value. *)
Theorem norm_value_provenance
        (v : Expr) (k : string) (m : option Mesh) (r : scalar) :
  outcome (norm v k m) = inr r ->
  In (lower k) supported_types /\
  exists form a,
    norm_form v k = inr form /\
    assemble_engine form = inr a /\
    ufl_sqrt a = inr r.
Proof.
  rewrite norm_unfold. intros H.
  destruct (norm_form v k) as [e|form] eqn:Hform; [discriminate|].
  split; [exact (norm_form_built_supported v k form Hform)|].
  unfold outcome, sqrt_of_assembled in H. simpl in H.
  destruct (assemble_engine form) as [e|a] eqn:Ea; [discriminate|].
  now exists form, a.
Qed.

(** X9.  The unknown-norm-type error names the type as written: a call
    of [norm] with an unsupported type differs from the call with any
    other type string, even one that differs in case only, as long as no
    UFL operator raises a [RuntimeError] of its own. *)
Theorem norm_unknown_type_names_type
        (v : Expr) (k k' : string) (m : option Mesh) :
  ~ In (lower k) supported_types ->
  k <> k' ->
  (forall e, In (lower k') supported_types -> norm_form v k' = inl e ->
             exn_class e <> "RuntimeError") ->
  norm v k m <> norm v k' m.
Proof.
  intros Hout Hne Hufl H. rewrite !norm_unfold in H.
  rewrite (norm_form_unsupported v k Hout) in H.
  destruct (in_dec string_dec (lower k') supported_types) as [Hin'|Hout'].
  - destruct (norm_form v k') as [e|form] eqn:Hform; [|discriminate].
    injection H as H. apply (Hufl e Hin' eq_refl). now rewrite <- H.
  - apply Hne. rewrite (norm_form_unsupported v k' Hout') in H.
    unfold unknown_norm_type, RuntimeError in H.
    injection H as H. now apply append_cancel_r in H.
Qed.

(** X12.  A norm type with white space anywhere in it, not only at its
    ends, is rejected with the unknown-norm-type error before anything is
    assembled. *)
Theorem norm_rejects_white_space (v : Expr) (k : string) (m : option Mesh) :
  has_space k = true ->
  norm v k m = ([], inl (unknown_norm_type k)).
Proof.
  intros H. apply norm_no_form, norm_form_unsupported.
  now apply space_not_supported.
Qed.
End NormProperties.

Lemma norm_assembly_failure_propagates_witness :
  norm (C := Demo.failing) Demo.f "Hcurl" None =
  ([EvAssemble (C := Demo.failing)
      [Demo.Inner Demo.f Demo.f;
       Demo.Inner (Demo.Curl Demo.f) (Demo.Curl Demo.f)]],
   inl Demo.singular).
Proof.
  exact (norm_assembly_failure_propagates (C := Demo.failing)
           Demo.f "Hcurl" None _ Demo.singular eq_refl eq_refl).
Defined.

(** One assembly on a vector field, none on a scalar field, whose
    divergence UFL refuses. *)
Lemma norm_assembles_once_witness :
  events (norm (C := Demo.failing) Demo.w "hdiv" None)
    = [EvAssemble (C := Demo.failing)
         [Demo.Inner Demo.w Demo.w;
          Demo.Product (Demo.Div Demo.w) (Demo.Div Demo.w)]] /\
  norm (C := Demo.failing) Demo.f "hdiv" None
    = ([], inl (Demo.ufl_error "Can't take the divergence of a scalar.")).
Proof.
  split.
  - exact (proj1 (norm_assembles_once (C := Demo.failing) Demo.w "hdiv" None)
             _ eq_refl).
  - exact (proj1 (proj2 (norm_assembles_once (C := Demo.failing)
                           Demo.f "hdiv" None)) _ eq_refl).
Defined.

Lemma norm_value_provenance_witness :
  In (lower "H1") supported_types /\
  exists form a,
    norm_form (C := Demo.real_root 16) Demo.f "H1" = inr form /\
    assemble_engine (Collaborators := Demo.real_root 16) form = inr a /\
    ufl_sqrt (C := Demo.real_root 16) a = inr 4%Z.
Proof.
  exact (norm_value_provenance (C := Demo.real_root 16)
           Demo.f "H1" None 4%Z eq_refl).
Defined.

(** ["H2"] and ["h2"] have the same lower-casing and different errors;
    ["H2"] and ["hdiv"] on a scalar field fail differently too. *)
Lemma norm_unknown_type_names_type_witness :
  lower "H2" = lower "h2" /\
  norm (C := Demo.real_root 9) Demo.f "H2" None
    <> norm (C := Demo.real_root 9) Demo.f "h2" None /\
  norm (C := Demo.real_root 9) Demo.f "H2" None
    <> norm (C := Demo.real_root 9) Demo.f "hdiv" None.
Proof.
  split; [reflexivity|]. split.
  - apply (norm_unknown_type_names_type (C := Demo.real_root 9)
             Demo.f "H2" "h2" None).
    + simpl. intros [H | [H | [H | [H | []]]]]; discriminate H.
    + discriminate.
    + simpl. intros e [H | [H | [H | [H | []]]]]; discriminate H.
  - apply (norm_unknown_type_names_type (C := Demo.real_root 9)
             Demo.f "H2" "hdiv" None).
    + simpl. intros [H | [H | [H | [H | []]]]]; discriminate H.
    + discriminate.
    + intros e _ H. injection H as <-. discriminate.
Defined.

Lemma norm_rejects_white_space_witness :
  norm (C := Demo.real_root 9) Demo.f "h div" None
    = ([], inl (unknown_norm_type "h div")).
Proof.
  exact (norm_rejects_white_space (C := Demo.real_root 9)
           Demo.f "h div" None eq_refl).
Defined.

(** ** Further properties of [errornorm] *)

Section ErrornormProperties.
Context `{C : Collaborators}.

(** X4.  A value returned by [errornorm] went through every stage: the
    ranks were equal, [uh] was a [Function], UFL formed [u - uh], the norm
    type was supported, [assemble] returned some [a] for the form built on
    [u - uh], and the value is [sqrt(a)]. *)
Theorem errornorm_value_provenance
        (u uh : Expr) (k : string) (dr : option Z) (m : option Mesh)
        (r : scalar) :
  outcome (errornorm u uh k dr m) = inr r ->
  length (ufl_shape u) = length (ufl_shape uh) /\
  isinstance_Function uh = true /\
  In (lower k) supported_types /\
  exists d form a,
    expr_sub u uh = inr d /\
    norm_form d k = inr form /\
    assemble_engine form = inr a /\
    ufl_sqrt a = inr r.
Proof.
  intros H. destruct (comparable u uh) eqn:Hc.
  - destruct (comparable_true u uh Hc) as [R F].
    rewrite (errornorm_comparable u uh k dr m Hc) in H.
    unfold outcome at 1 in H. simpl in H.
    rewrite norm_difference_unfold in H.
    split; [now apply Nat.eqb_eq|]. split; [exact F|].
    destruct (expr_sub u uh) as [e|d]; [discriminate|].
    rewrite norm_unfold in H.
    destruct (norm_form d k) as [e|form] eqn:Hform; [discriminate|].
    split; [exact (norm_form_built_supported d k form Hform)|].
    unfold outcome, sqrt_of_assembled in H. simpl in H.
    destruct (assemble_engine form) as [e|a] eqn:Ea; [discriminate|].
    now exists d, form, a.
  - destruct (errornorm_incomparable u uh k dr m Hc) as [_ [E|E]];
      rewrite E in H; discriminate.
Qed.

(** X5.  The warning is logged exactly when both checks pass, [u] is a
    [Function] and the degree of [uh] is strictly greater than that of
    [u]; in every other case, equal degrees included, none is logged.
    There is never more than one. *)
Theorem errornorm_warning_iff
        (u uh : Expr) (k : string) (dr : option Z) (m : option Mesh) :
  warnings (errornorm u uh k dr m) =
  if comparable u uh && coarser_reference u uh then [degree_warning] else [].
Proof.
  destruct (comparable u uh) eqn:Hc; simpl.
  - rewrite (errornorm_comparable u uh k dr m Hc).
    unfold warnings, events at 1. simpl. rewrite filter_app.
    fold (warnings (norm_difference u uh k m)).
    rewrite norm_difference_warnings, app_nil_r.
    now destruct (coarser_reference u uh).
  - unfold warnings.
    now rewrite (proj1 (errornorm_incomparable u uh k dr m Hc)).
Qed.

(** X6.  The warning does not wait for the difference to be formed nor
    for the norm type to be checked: with comparable operands and a
    reference coarser than the approximation, the warning is logged, and
    the call then fails with the exception of [u - uh] if UFL raises
    there, or else with the unknown-norm-type error if the type is
    unsupported; nothing is assembled. *)
Theorem errornorm_warns_then_fails
        (u uh : Expr) (k : string) (dr : option Z) (m : option Mesh) :
  comparable u uh = true ->
  coarser_reference u uh = true ->
  (forall e, expr_sub u uh = inl e ->
             errornorm u uh k dr m = ([degree_warning], inl e)) /\
  (forall d, expr_sub u uh = inr d ->
             ~ In (lower k) supported_types ->
             errornorm u uh k dr m
               = ([degree_warning], inl (unknown_norm_type k))).
Proof.
  intros Hc Hcr.
  rewrite (errornorm_comparable u uh k dr m Hc), Hcr, norm_difference_unfold.
  split.
  - intros e He. now rewrite He.
  - intros d Hd Hout. rewrite Hd, norm_unfold.
    now rewrite (norm_form_unsupported d k Hout).
Qed.

(** X7.  Whatever the arguments, [errornorm] logs at most one warning
    and assembles at most one form, the one [norm] builds on [u - uh], and
    the warning comes first: its events are nothing, the warning alone, the
    assembly alone, or the warning followed by the assembly. *)
Theorem errornorm_events_shape
        (u uh : Expr) (k : string) (dr : option Z) (m : option Mesh) :
  events (errornorm u uh k dr m) = [] \/
  events (errornorm u uh k dr m) = [degree_warning] \/
  exists d form,
    expr_sub u uh = inr d /\
    norm_form d k = inr form /\
    (events (errornorm u uh k dr m) = [EvAssemble form] \/
     events (errornorm u uh k dr m) = [degree_warning; EvAssemble form]).
Proof.
  destruct (comparable u uh) eqn:Hc.
  - rewrite (errornorm_comparable u uh k dr m Hc), norm_difference_unfold.
    destruct (expr_sub u uh) as [e|d].
    + destruct (coarser_reference u uh); simpl; auto.
    + rewrite norm_unfold.
      destruct (norm_form d k) as [e|form] eqn:E;
        destruct (coarser_reference u uh); simpl; eauto 8.
  - left. exact (proj1 (errornorm_incomparable u uh k dr m Hc)).
Qed.

(** X8.  [errornorm] is case insensitive in the norm type as [norm] is:
    two supported types with the same lower-casing give the same call,
    events and outcome alike. *)
Theorem errornorm_case_insensitive
        (u uh : Expr) (k k' : string) (dr : option Z) (m : option Mesh) :
  lower k = lower k' ->
  In (lower k) supported_types ->
  errornorm u uh k dr m = errornorm u uh k' dr m.
Proof.
  intros E Hin. rewrite !errornorm_unfold, !norm_difference_unfold.
  destruct (expr_sub u uh) as [e|d]; [reflexivity|].
  now rewrite !norm_unfold, (norm_form_same_lower d k k' E Hin).
Qed.

(** X10.  With comparable operands, once UFL has formed [u - uh] and the
    form of the norm on it, [errornorm] hands to [assemble] exactly that
    form, once, and its outcome is [sqrt(assemble(form))]: the exception
    of [assemble] if it raises, else what [sqrt] yields. *)
Theorem errornorm_assembles_difference_form
        (u uh : Expr) (k : string) (dr : option Z) (m : option Mesh)
        (d : Expr) (form : Form) :
  comparable u uh = true ->
  expr_sub u uh = inr d ->
  norm_form d k = inr form ->
  assembled (errornorm u uh k dr m) = [EvAssemble form] /\
  outcome (errornorm u uh k dr m) = sqrt_of_assembled form.
Proof.
  intros Hc Hd H.
  rewrite (errornorm_comparable u uh k dr m Hc), norm_difference_unfold, Hd.
  rewrite norm_unfold, H.
  unfold assembled, events, outcome. simpl.
  now destruct (coarser_reference u uh).
Qed.

(** X11.  Called without a norm type, [errornorm] computes the L2 norm
    of the error: for comparable operands, once UFL has formed
    [d = u - uh] and [inner(d, d)*dx], that is the one form assembled. *)
Theorem errornorm_default_is_L2
        (u uh : Expr) (dr : option Z) (m : option Mesh)
        (d a : Expr) (form : Form) :
  comparable u uh = true ->
  expr_sub u uh = inr d ->
  inner d d = inr a ->
  integral a dx = inr form ->
  assembled (errornorm u uh default_norm_type dr m) = [EvAssemble form] /\
  outcome (errornorm u uh default_norm_type dr m) = sqrt_of_assembled form.
Proof.
  intros Hc Hd Ha Hform.
  rewrite (errornorm_comparable u uh default_norm_type dr m Hc).
  rewrite norm_difference_unfold, Hd, norm_unfold.
  assert (H : norm_form d default_norm_type = inr form).
  { unfold norm_form, default_norm_type. simpl. now rewrite Ha. }
  rewrite H. unfold assembled, events, outcome. simpl.
  now destruct (coarser_reference u uh).
Qed.

(** X13.  With comparable operands, an exception raised by UFL in
    [u - uh] (operands of equal rank and different shapes) is the
    exception of [errornorm], whatever the norm type, supported or not;
    nothing is assembled. *)
Theorem errornorm_difference_failure
        (u uh : Expr) (k : string) (dr : option Z) (m : option Mesh)
        (e : exn) :
  comparable u uh = true ->
  expr_sub u uh = inl e ->
  outcome (errornorm u uh k dr m) = inl e /\
  assembled (errornorm u uh k dr m) = [].
Proof.
  intros Hc He.
  rewrite (errornorm_comparable u uh k dr m Hc), norm_difference_unfold, He.
  unfold assembled, events, outcome. simpl.
  now destruct (coarser_reference u uh).
Qed.
End ErrornormProperties.

(** ** [errornorm] on concrete operands, continued *)

Lemma errornorm_value_provenance_witness :
  length (ufl_shape (Collaborators := Demo.real_root 16) Demo.u_p1)
    = length (ufl_shape (Collaborators := Demo.real_root 16) Demo.uh_p2) /\
  isinstance_Function (Collaborators := Demo.real_root 16) Demo.uh_p2 = true /\
  In (lower "L2") supported_types /\
  exists d form a,
    expr_sub (Collaborators := Demo.real_root 16) Demo.u_p1 Demo.uh_p2 = inr d /\
    norm_form (C := Demo.real_root 16) d "L2" = inr form /\
    assemble_engine (Collaborators := Demo.real_root 16) form = inr a /\
    ufl_sqrt (C := Demo.real_root 16) a = inr 4%Z.
Proof.
  exact (errornorm_value_provenance (C := Demo.real_root 16)
           Demo.u_p1 Demo.uh_p2 "L2" None None 4%Z eq_refl).
Defined.

(** Vectors of two and of three components: the warning, then the
    exception of the difference.  Vectors of two components and the type
    ["H2"]: the warning, then the unknown-type error. *)
Lemma errornorm_warns_then_fails_witness :
  errornorm (C := Demo.real_root 9) Demo.u_p1_vec Demo.uh_p2_vec3 "L2" None None =
  ([degree_warning (C := Demo.real_root 9)],
   inl (Demo.ufl_error "Can't add expressions with different shapes.")) /\
  errornorm (C := Demo.real_root 9) Demo.u_p1_vec Demo.uh_p2_vec "H2" None None =
  ([degree_warning (C := Demo.real_root 9)],
   inl (RuntimeError "Unknown norm type 'H2'")).
Proof.
  split.
  - exact (proj1 (errornorm_warns_then_fails (C := Demo.real_root 9)
                    Demo.u_p1_vec Demo.uh_p2_vec3 "L2" None None
                    eq_refl eq_refl) _ eq_refl).
  - apply (proj2 (errornorm_warns_then_fails (C := Demo.real_root 9)
                    Demo.u_p1_vec Demo.uh_p2_vec "H2" None None
                    eq_refl eq_refl)
             (Demo.Difference Demo.u_p1_vec Demo.uh_p2_vec) eq_refl).
    simpl. intros [H | [H | [H | [H | []]]]]; discriminate H.
Defined.

Lemma errornorm_case_insensitive_witness :
  errornorm (C := Demo.real_root 9) Demo.u_vec Demo.uh_p2_vec "HDIV" None None =
  errornorm (C := Demo.real_root 9) Demo.u_vec Demo.uh_p2_vec "hdiv" None None.
Proof.
  apply (errornorm_case_insensitive (C := Demo.real_root 9)
           Demo.u_vec Demo.uh_p2_vec "HDIV" "hdiv" None None);
    [reflexivity | simpl; auto].
Defined.

(** The engine fails: the failure is the outcome of [errornorm], after
    the one assembly. *)
Lemma errornorm_assembles_difference_form_witness :
  assembled (errornorm (C := Demo.failing) Demo.u_p1 Demo.uh_p2 "h1" None None)
    = [EvAssemble (C := Demo.failing)
         [Demo.Inner (Demo.Difference Demo.u_p1 Demo.uh_p2)
                     (Demo.Difference Demo.u_p1 Demo.uh_p2);
          Demo.Inner (Demo.Grad (Demo.Difference Demo.u_p1 Demo.uh_p2))
                     (Demo.Grad (Demo.Difference Demo.u_p1 Demo.uh_p2))]] /\
  outcome (errornorm (C := Demo.failing) Demo.u_p1 Demo.uh_p2 "h1" None None)
    = inl Demo.singular.
Proof.
  exact (errornorm_assembles_difference_form (C := Demo.failing)
           Demo.u_p1 Demo.uh_p2 "h1" None None _ _ eq_refl eq_refl eq_refl).
Defined.

(** Equal degrees: no warning, and the L2 form of the difference. *)
Lemma errornorm_default_is_L2_witness :
  assembled (errornorm (C := Demo.real_root 25)
               Demo.u_p2 Demo.uh_p2 default_norm_type None None)
    = [EvAssemble (C := Demo.real_root 25)
         [Demo.Inner (Demo.Difference Demo.u_p2 Demo.uh_p2)
                     (Demo.Difference Demo.u_p2 Demo.uh_p2)]] /\
  outcome (errornorm (C := Demo.real_root 25)
             Demo.u_p2 Demo.uh_p2 default_norm_type None None)
    = inr 5%Z.
Proof.
  exact (errornorm_default_is_L2 (C := Demo.real_root 25)
           Demo.u_p2 Demo.uh_p2 None None _ _ _ eq_refl eq_refl eq_refl eq_refl).
Defined.

(** A symbolic vector of two components against a [Function] of three:
    the exception of the difference, even with an unsupported type. *)
Lemma errornorm_difference_failure_witness :
  outcome (errornorm (C := Demo.real_root 9)
             Demo.u_vec Demo.uh_p2_vec3 "H2" None None)
    = inl (Demo.ufl_error "Can't add expressions with different shapes.") /\
  assembled (errornorm (C := Demo.real_root 9)
               Demo.u_vec Demo.uh_p2_vec3 "H2" None None) = [].
Proof.
  exact (errornorm_difference_failure (C := Demo.real_root 9)
           Demo.u_vec Demo.uh_p2_vec3 "H2" None None _ eq_refl eq_refl).
Defined.
